(** * Orbital visualisation notebook: a shallow embedding of its pipeline

    The notebook [orbital_visualisation.ipynb] defines four functions
    ([gen_mol], [run_dft], [calc_e], [gen_orb]) and a few driver cells.
    Every numerical step is a call into PySCF; the notebook itself only
    sets attributes, builds a file name, slices one column out of the
    orbital-coefficient matrix and returns what the library returned.

    The embedding keeps that shape.  Python objects are records, Python
    integers are [Z], floats are binary64 ([PrimFloat.float]), keyword
    parameters with a default are [option] arguments ([None] = omitted), and
    a notebook function is a program in a small free monad [py] whose
    operations are the library calls.  A program is run against an
    environment that answers each call (with a value or with an exception)
    and may change the world (files, standard output); the run also returns
    the list of calls that were made, in order. *)

From Stdlib Require Import ZArith Ascii String List DecimalString Floats.
From Stdlib Require DecimalPos DecimalZ.
From stdpp Require Import base strings list gmap.

Open Scope string_scope.
Open Scope Z_scope.

(* Decimal literals are read as the nearest binary64 value, as Python reads them. *)
Set Warnings "-inexact-float".

(** ** Python values used by the notebook *)

(** Exceptions that can reach the caller.  [IndexError] is numpy's
    "index [idx] is out of bounds for axis [axis] with size [size]";
    [TypeError] is raised when [None] is subscripted; [Raised] is any other
    exception, by the name of its class and its message: what a library
    call raises, and what numpy raises for an index that does not fit its
    signed 64-bit index type. *)
Inductive exn : Type :=
| IndexError (idx : Z) (axis : nat) (size : nat)
| TypeError (msg : string)
| Raised (name msg : string).

(** [str(n)] for a Python integer: decimal digits, a leading minus sign for
    negative numbers, no padding.  This is the text for every integer
    CPython agrees to render; from version 3.11 on it refuses integers of
    more than 4300 digits with a ValueError, which this function does not
    show, so statements about what is raised are made for indices of
    machine-word size only. *)
Definition str (n : Z) : string := NilZero.string_of_int (Z.to_int n).

(** A two-dimensional numpy array of floats, row by row.  For the
    coefficient matrix [shape0] is the number of atomic orbitals and
    [shape1] the number of molecular orbitals. *)
Record ndarray : Type := mk_ndarray {
  shape0 : nat;
  shape1 : nat;
  rows : list (list float)
}.

Definition ndarray_wf (a : ndarray) : bool :=
  Nat.eqb (length (rows a)) (shape0 a)
  && forallb (fun r => Nat.eqb (length r) (shape1 a)) (rows a).

(** The column at 0-based position [j]: one entry per row. *)
Definition column (a : ndarray) (j : nat) : list float :=
  map (fun r => nth j r 0%float) (rows a).

(** An integer index [k] along an axis of length [size]: non-negative
    indices count from the front, negative ones from the back.  Anything
    else is an error: the [IndexError] that reports [k] as written when [k]
    fits a signed 64-bit word; an OverflowError for [k] from [2^63] up to
    [2^64 - 1], which numpy reads as an unsigned word and then fails to
    convert; and for an integer of no machine type the IndexError numpy has
    for an index that is not an integer, which names neither index nor
    axis nor size.  (numpy converts the index before it compares it with
    the length; since no axis has [2^63] entries, looking at the range
    first gives the same answers.) *)
Definition normalize_index (k : Z) (axis size : nat) : exn + nat :=
  if (0 <=? k) && (k <? Z.of_nat size) then inr (Z.to_nat k)
  else if (- Z.of_nat size <=? k) && (k <? 0) then inr (Z.to_nat (k + Z.of_nat size))
  else if (- 2 ^ 63 <=? k) && (k <? 2 ^ 63) then inl (IndexError k axis size)
  else if (2 ^ 63 <=? k) && (k <? 2 ^ 64) then
    inl (Raised "OverflowError" "Python int too large to convert to C long")
  else
    inl (Raised "IndexError"
           "only integers, slices (`:`), ellipsis (`...`), numpy.newaxis (`None`) and integer or boolean arrays are valid indices").

(** [a[:, k]] *)
Definition getitem_col (a : ndarray) (k : Z) : exn + list float :=
  match normalize_index k 1 (shape1 a) with
  | inr j => inr (column a j)
  | inl e => inl e
  end.

(** One parsed atom: element symbol and Cartesian position. *)
Record AtomRecord : Type := mk_atom {
  symbol : string;
  position : float * float * float
}.

(** [gto.Mole]: the attributes the notebook sets, and [_atom], the
    geometry as the library holds it once the molecule is built. *)
Record Mole : Type := mk_Mole {
  atom : string;
  basis : string;
  output : option string;
  verbose : Z;
  charge : Z;
  _atom : list AtomRecord
}.

(** [gto.Mole()]: a fresh object with the library's defaults. *)
Definition Mole_new : Mole :=
  {| atom := ""; basis := "sto-3g"; output := None; verbose := 3;
     charge := 0; _atom := [] |}.

(** What [kernel()] leaves on the mean-field object when it returns. *)
Record scf_result : Type := mk_scf_result {
  res_converged : bool;
  res_e_tot : float;
  res_mo_coeff : ndarray
}.

(** The Kohn-Sham object [mf]. *)
Record KS : Type := mk_KS {
  mol : Mole;
  xc : string;
  max_cycle : Z;
  converged : bool;
  e_tot : float;
  mo_coeff : option ndarray
}.

(** [mol.KS()]: a fresh mean-field object on [m] with the library's
    defaults; nothing has been computed yet. *)
Definition Mole_KS (m : Mole) : KS :=
  {| mol := m; xc := "LDA,VWN"; max_cycle := 50; converged := false;
     e_tot := 0%float; mo_coeff := None |}.

(** ** Library calls and programs *)

(** The calls the notebook makes, indexed by the type of what they give
    back.  [Mole_build] hands back the parsed geometry, [KS_kernel] the
    solver's result, [geometric_optimize] the relaxed molecule,
    [Mole_atom_coords] the array of the coordinates, [ndarray_str] the text
    numpy renders an array as (what [print] asks an array for). *)
Inductive call : Type -> Type :=
| Mole_build (m : Mole) : call (list AtomRecord)
| KS_kernel (mf : KS) : call scf_result
| geometric_optimize (mf : KS) (maxsteps : Z) : call Mole
| cubegen_orbital (m : Mole) (outfile : string) (coeff : list float) : call unit
| builtins_print (line : string) : call unit
| Mole_atom_coords (m : Mole) : call ndarray
| ndarray_str (a : ndarray) : call string.

(** The same calls without the index, for logs. *)
Inductive event : Type :=
| EvBuild (m : Mole)
| EvKernel (mf : KS)
| EvOptimize (mf : KS) (maxsteps : Z)
| EvCubegen (m : Mole) (outfile : string) (coeff : list float)
| EvPrint (line : string)
| EvAtomCoords (m : Mole)
| EvArrayStr (a : ndarray).

Definition event_of {X : Type} (c : call X) : event :=
  match c with
  | Mole_build m => EvBuild m
  | KS_kernel mf => EvKernel mf
  | geometric_optimize mf n => EvOptimize mf n
  | cubegen_orbital m f c => EvCubegen m f c
  | builtins_print s => EvPrint s
  | Mole_atom_coords m => EvAtomCoords m
  | ndarray_str a => EvArrayStr a
  end.

(** A notebook function: return, raise, or make a call and go on with its
    answer.  There is no handler construct: the notebook has no
    [try]/[except]. *)
Inductive py (A : Type) : Type :=
| Ret (a : A)
| Throw (e : exn)
| Do {X : Type} (c : call X) (k : X -> py A).

Arguments Ret {A} a.
Arguments Throw {A} e.
Arguments Do {A X} c k.

Fixpoint py_bind {A B : Type} (p : py A) (f : A -> py B) : py B :=
  match p with
  | Ret a => f a
  | Throw e => Throw e
  | Do c k => Do c (fun x => py_bind (k x) f)
  end.

Definition perform {X : Type} (c : call X) : py X := Do c Ret.

Definition lift {A : Type} (r : exn + A) : py A :=
  match r with
  | inr a => Ret a
  | inl e => Throw e
  end.

#[global] Instance py_ret : MRet py := @Ret.
#[global] Instance py_mbind : MBind py := fun A B f p => py_bind p f.

(** Attribute assignment, one setter per attribute the notebook writes. *)
Definition set_atom (v : string) (m : Mole) : Mole :=
  {| atom := v; basis := basis m; output := output m; verbose := verbose m;
     charge := charge m; _atom := _atom m |}.
Definition set_basis (v : string) (m : Mole) : Mole :=
  {| atom := atom m; basis := v; output := output m; verbose := verbose m;
     charge := charge m; _atom := _atom m |}.
Definition set_output (v : option string) (m : Mole) : Mole :=
  {| atom := atom m; basis := basis m; output := v; verbose := verbose m;
     charge := charge m; _atom := _atom m |}.
Definition set_verbose (v : Z) (m : Mole) : Mole :=
  {| atom := atom m; basis := basis m; output := output m; verbose := v;
     charge := charge m; _atom := _atom m |}.
Definition set_charge (v : Z) (m : Mole) : Mole :=
  {| atom := atom m; basis := basis m; output := output m; verbose := verbose m;
     charge := v; _atom := _atom m |}.
(** What [build()] does to the object it is called on: the attributes stay,
    the parsed geometry is filled in. *)
Definition set__atom (v : list AtomRecord) (m : Mole) : Mole :=
  {| atom := atom m; basis := basis m; output := output m; verbose := verbose m;
     charge := charge m; _atom := v |}.

Definition set_xc (v : string) (mf : KS) : KS :=
  {| mol := mol mf; xc := v; max_cycle := max_cycle mf;
     converged := converged mf; e_tot := e_tot mf; mo_coeff := mo_coeff mf |}.
Definition set_max_cycle (v : Z) (mf : KS) : KS :=
  {| mol := mol mf; xc := xc mf; max_cycle := v;
     converged := converged mf; e_tot := e_tot mf; mo_coeff := mo_coeff mf |}.
(** What [kernel()] does to the object it is called on: the configuration
    stays, the results are stored. *)
Definition store_result (r : scf_result) (mf : KS) : KS :=
  {| mol := mol mf; xc := xc mf; max_cycle := max_cycle mf;
     converged := res_converged r; e_tot := res_e_tot r;
     mo_coeff := Some (res_mo_coeff r) |}.

(** ** The notebook's functions *)

Definition default_basis : string := "def2-svp".
Definition default_output : string := "pyscf.log".
Definition default_charge : Z := 0.
Definition default_xc_func : string := "b3lyp".

(** [def gen_mol(coords, basis='def2-svp', output='pyscf.log', charge=0)]:
    six assignments, [build()], return the object. *)
Definition gen_mol (coords : string) (basis_arg output_arg : option string)
    (charge_arg : option Z) : py Mole :=
  let m := Mole_new in
  let m := set_atom coords m in
  let m := set_basis (default default_basis basis_arg) m in
  let m := set_output (Some (default default_output output_arg)) m in
  let m := set_verbose 5 m in
  let m := set_charge (default default_charge charge_arg) m in
  parsed ← perform (Mole_build m);
  mret (set__atom parsed m).

(** [def run_dft(mol, xc_func='b3lyp')] *)
Definition run_dft (m : Mole) (xc_func : option string) : py KS :=
  let mf := Mole_KS m in
  let mf := set_xc (default default_xc_func xc_func) mf in
  let mf := set_max_cycle 300 mf in
  r ← perform (KS_kernel mf);
  mret (store_result r mf).

(** [def calc_e(coords, basis='def2-svp', xc_func='b3lyp')]: the basis is
    forwarded by keyword, the functional by position, nothing else. *)
Definition calc_e (coords : string) (basis_arg xc_func : option string) : py KS :=
  m ← gen_mol coords (Some (default default_basis basis_arg)) None None;
  mf ← run_dft m (Some (default default_xc_func xc_func));
  mret mf.

(** [mf.mo_coeff[:, k]] *)
Definition mo_coeff_col (mf : KS) (k : Z) : exn + list float :=
  match mo_coeff mf with
  | Some a => getitem_col a k
  | None => inl (TypeError "'NoneType' object is not subscriptable")
  end.

(** [def gen_orb(mol_name:str, orb_num:int, mf)]: the arguments of
    [cubegen.orbital] are evaluated left to right before the call. *)
Definition gen_orb (mol_name : string) (orb_num : Z) (mf : KS) : py unit :=
  let file := mol_name +:+ "_mol_" +:+ str orb_num +:+ ".cub" in
  col ← lift (mo_coeff_col mf (orb_num - 1));
  perform (cubegen_orbital (mol mf) file col).

(** The driver cell that exports the six highest occupied orbitals of
    benzene:
    [for idx in range(16,22): print(f'Writing orbital {idx}'); gen_orb('benzene', idx, mf_eq)] *)
Fixpoint export_loop (idxs : list Z) (mf_eq : KS) : py unit :=
  match idxs with
  | [] => mret tt
  | idx :: rest =>
      _ ← perform (builtins_print ("Writing orbital " +:+ str idx));
      _ ← gen_orb "benzene" idx mf_eq;
      export_loop rest mf_eq
  end.

Definition range_16_22 : list Z := [16; 17; 18; 19; 20; 21].

(** [print(m.atom_coords())]: the molecule is asked for its coordinates,
    the array for its text, and the text is printed. *)
Definition print_atom_coords (m : Mole) : py unit :=
  xyz ← perform (Mole_atom_coords m);
  text ← perform (ndarray_str xyz);
  perform (builtins_print text).

(** The driver cells from the first energy to the relaxed solved state:
    [my_mf = calc_e(benzene_coordinates)],
    [mol_eq = optimize(my_mf, maxsteps=100)], [mf_eq = run_dft(mol_eq)],
    [print(mol_eq.atom_coords())]. *)
Definition relax (coords : string) : py (KS * Mole * KS) :=
  my_mf ← calc_e coords None None;
  mol_eq ← perform (geometric_optimize my_mf 100);
  mf_eq ← run_dft mol_eq None;
  _ ← print_atom_coords mol_eq;
  mret (my_mf, mol_eq, mf_eq).

(** ** Running a program *)

(** What a run can touch outside the Python objects: the files on disk (by
    path) and the lines printed so far. *)
Record world : Type := mk_world {
  files : gmap string string;
  stdout : list string
}.

(** An environment answers every call, with a value or with an exception,
    and says what the world is afterwards. *)
Definition env : Type := forall X : Type, call X -> world -> (exn + X) * world.

Record outcome (A : Type) : Type := mk_outcome {
  result : exn + A;
  final : world;
  calls : list event
}.
Arguments mk_outcome {A} _ _ _.
Arguments result {A} _.
Arguments final {A} _.
Arguments calls {A} _.

(** Calls are answered one after the other; an exception out of a call ends
    the run there, since nothing catches it. *)
Fixpoint run {A : Type} (lib : env) (p : py A) (w : world) : outcome A :=
  match p with
  | Ret a => mk_outcome (inr a) w []
  | Throw e => mk_outcome (inl e) w []
  | Do c k =>
      match lib _ c w with
      | (inr x, w') =>
          let o := run lib (k x) w' in
          mk_outcome (result o) (final o) (event_of c :: calls o)
      | (inl e, w') => mk_outcome (inl e) w' [event_of c]
      end
  end.

(** ** What the functions ask of the library *)

(** The molecule [gen_mol] hands to [build()]. *)
Definition mol_request (coords : string) (basis_arg output_arg : option string)
    (charge_arg : option Z) : Mole :=
  {| atom := coords;
     basis := default default_basis basis_arg;
     output := Some (default default_output output_arg);
     verbose := 5;
     charge := default default_charge charge_arg;
     _atom := [] |}.

(** The mean-field object [run_dft] hands to the solver. *)
Definition dft_request (m : Mole) (xc_func : option string) : KS :=
  set_max_cycle 300 (set_xc (default default_xc_func xc_func) (Mole_KS m)).

(** The solver did not reach convergence on [mf]: its call raised, or it
    returned with the flag [converged] false. *)
Definition not_converged (lib : env) (mf : KS) (w : world) : Prop :=
  match (lib _ (KS_kernel mf) w).1 with
  | inl _ => True
  | inr r => res_converged r = false
  end.

(** ** Sample molecules, states and environments *)

Definition water_coords : string :=
  "
O          0.93500       -0.05051        0.04534
H          1.90288       -0.06684        0.08881
H          0.65615       -0.37698        0.91403
".

Definition water_atoms : list AtomRecord :=
  [ mk_atom "O" (0.93500, -0.05051, 0.04534)%float;
    mk_atom "H" (1.90288, -0.06684, 0.08881)%float;
    mk_atom "H" (0.65615, -0.37698, 0.91403)%float ].

(** A 2 x 3 coefficient matrix: two atomic orbitals, three columns. *)
Definition sample_coeff : ndarray :=
  {| shape0 := 2; shape1 := 3;
     rows := [ [0.1; 0.2; 0.3]%float; [0.4; 0.5; 0.6]%float ] |}.

Definition sample_mol : Mole :=
  {| atom := water_coords; basis := "def2-svp"; output := Some "pyscf.log";
     verbose := 5; charge := 0; _atom := water_atoms |}.

Definition sample_mf : KS :=
  {| mol := sample_mol; xc := "b3lyp"; max_cycle := 300; converged := true;
     e_tot := (-76.3)%float; mo_coeff := Some sample_coeff |}.

Definition write_file (path content : string) (w : world) : world :=
  {| files := <[path := content]> (files w); stdout := stdout w |}.

Definition print_line (line : string) (w : world) : world :=
  {| files := files w; stdout := stdout w ++ [line] |}.

(** An environment in which every call succeeds: [build] opens the log file
    afresh, the solver answers [r], the optimizer hands the molecule back,
    the grid generator writes its file. *)
Definition answering (r : scf_result) : env :=
  fun X c =>
    match c in call X return world -> (exn + X) * world with
    | Mole_build m => fun w =>
        (inr water_atoms,
         match output m with
         | Some path => write_file path ("basis = " +:+ basis m) w
         | None => w
         end)
    | KS_kernel mf => fun w => (inr r, w)
    | geometric_optimize mf _ => fun w => (inr (mol mf), w)
    | cubegen_orbital m f col => fun w => (inr tt, write_file f "cube" w)
    | builtins_print line => fun w => (inr tt, print_line line w)
    | Mole_atom_coords m => fun w =>
        (inr {| shape0 := length (_atom m); shape1 := 3;
                rows := map (fun a => let '(x, y, z) := position a in [x; y; z])
                            (_atom m) |}, w)
    | ndarray_str a => fun w => (inr "[[...]]", w)
    end.

Definition converging : env :=
  answering {| res_converged := true; res_e_tot := (-76.3)%float;
               res_mo_coeff := sample_coeff |}.

(** The solver that uses up its cycles: [kernel()] returns all the same,
    with the flag [converged] left false. *)
Definition stalling : env :=
  answering {| res_converged := false; res_e_tot := (-75.9)%float;
               res_mo_coeff := sample_coeff |}.

(** The solver that raises. *)
Definition raising (e : exn) : env :=
  fun X c =>
    match c in call X return world -> (exn + X) * world with
    | KS_kernel mf => fun w => (inl e, w)
    | c' => converging _ c'
    end.


Definition empty_world : world := {| files := ∅; stdout := [] |}.

(** A world in which an earlier run has left a log behind. *)
Definition used_world : world :=
  {| files := {[ "pyscf.log" := "log of an earlier run" ]}; stdout := [] |}.

(** A state with 21 columns, as many as benzene has occupied orbitals; the
    entries tell the columns apart. *)
Definition wide_coeff : ndarray :=
  {| shape0 := 1; shape1 := 21;
     rows := [ (repeat 0.5%float 16 ++ [0.75%float] ++ repeat 0.25%float 4)%list ] |}.

Definition wide_mf : KS :=
  {| mol := sample_mol; xc := "b3lyp"; max_cycle := 300; converged := true;
     e_tot := (-232.0)%float; mo_coeff := Some wide_coeff |}.

(** A library whose solver answers with the 21-column matrix. *)
Definition wide_solver : env :=
  answering {| res_converged := true; res_e_tot := (-232.0)%float;
               res_mo_coeff := wide_coeff |}.

(** ** The remaining cells *)

(** [a[k]] on a two-dimensional array: the row at index [k], counted from
    the back when [k] is negative; an [IndexError] on axis 0 otherwise. *)
Definition getitem_row (a : ndarray) (k : Z) : exn + list float :=
  match normalize_index k 0 (shape0 a) with
  | inr i => inr (nth i (rows a) [])
  | inl e => inl e
  end.

(** The cell [mf_eq.mo_coeff[21]], for any state and index. *)
Definition mo_coeff_row (mf : KS) (k : Z) : exn + list float :=
  match mo_coeff mf with
  | Some a => getitem_row a k
  | None => inl (TypeError "'NoneType' object is not subscriptable")
  end.

(** The cells from the first energy to the exported cubes, run one after
    the other in the order of the notebook, an exception ending the run: the
    export loop runs on [mf_eq], the state solved on the relaxed molecule.
    The cells in between that only display a value are left out. *)
Definition relax_and_export (coords : string) : py (KS * Mole * KS) :=
  s ← relax coords;
  _ ← export_loop range_16_22 s.2;
  mret s.

(** ** Reading a log *)

Definition event_kind (ev : event) : string :=
  match ev with
  | EvBuild _ => "build"
  | EvKernel _ => "kernel"
  | EvOptimize _ _ => "optimize"
  | EvCubegen _ _ _ => "cubegen"
  | EvPrint _ => "print"
  | EvAtomCoords _ => "atom_coords"
  | EvArrayStr _ => "str"
  end.

(** The files the grid generator was asked to write, in order. *)
Definition outfiles (log : list event) : list string :=
  omap (fun ev => match ev with EvCubegen _ f _ => Some f | _ => None end) log.

(** What the export loop asks for when nothing goes wrong on the way: for
    each index a line on standard output, then the cube of that orbital. *)
Definition export_events (mf : KS) (a : ndarray) (idxs : list Z) : list event :=
  flat_map (fun idx =>
              [ EvPrint ("Writing orbital " +:+ str idx);
                EvCubegen (mol mf) ("benzene_mol_" +:+ str idx +:+ ".cub")
                          (column a (Z.to_nat (idx - 1))) ])
           idxs.


(** Characters of a decimal rendering never include the underscore. *)
Fixpoint no_underscore (s : string) : bool :=
  match s with
  | EmptyString => true
  | String c s' => negb (Ascii.eqb c "_"%char) && no_underscore s'
  end.

(** ** Properties *)

(** *** Running in steps *)

Lemma run_perform {X : Type} (lib : env) (c : call X) (w : world) :
  run lib (perform c) w =
  mk_outcome (lib _ c w).1 (lib _ c w).2 [event_of c].
Proof.
  unfold perform. cbn. destruct (lib _ c w) as [[e | x] w']; reflexivity.
Qed.

Lemma run_bind {A B : Type} (lib : env) (p : py A) (f : A -> py B) (w : world) :
  run lib (p ≫= f) w =
  match result (run lib p w) with
  | inr a =>
      let o := run lib (f a) (final (run lib p w)) in
      mk_outcome (result o) (final o) (calls (run lib p w) ++ calls o)
  | inl e => mk_outcome (inl e) (final (run lib p w)) (calls (run lib p w))
  end.
Proof.
  revert w. induction p as [a | e | X c k IH]; intros w.
  - cbn. destruct (run lib (f a) w); reflexivity.
  - reflexivity.
  - change (Do c k ≫= f) with (Do c (fun x => k x ≫= f)). cbn.
    destruct (lib _ c w) as [[e | x] w']; [reflexivity |].
    rewrite IH. cbn. destruct (result (run lib (k x) w')); reflexivity.
Qed.

(** *** Indexing *)

Lemma normalize_index_front (k : Z) (axis size : nat) :
  0 <= k < Z.of_nat size -> normalize_index k axis size = inr (Z.to_nat k).
Proof.
  intros [H0 H1]. unfold normalize_index.
  apply Z.leb_le in H0. apply Z.ltb_lt in H1. rewrite H0, H1. reflexivity.
Qed.

Lemma normalize_index_back (k : Z) (axis size : nat) :
  - Z.of_nat size <= k < 0 ->
  normalize_index k axis size = inr (Z.to_nat (k + Z.of_nat size)).
Proof.
  intros [H0 H1]. unfold normalize_index.
  assert ((0 <=? k) = false) as -> by (apply Z.leb_gt; lia).
  apply Z.leb_le in H0. apply Z.ltb_lt in H1. rewrite H0, H1. reflexivity.
Qed.

(** Outside the range there is always an error. *)
Lemma normalize_index_outside (k : Z) (axis size : nat) :
  Z.of_nat size <= k \/ k < - Z.of_nat size ->
  exists e, normalize_index k axis size = inl e.
Proof.
  intros H. unfold normalize_index.
  assert ((0 <=? k) && (k <? Z.of_nat size) = false) as ->.
  { apply andb_false_iff. rewrite Z.leb_gt, Z.ltb_ge. lia. }
  assert ((- Z.of_nat size <=? k) && (k <? 0) = false) as ->.
  { apply andb_false_iff. rewrite Z.leb_gt, Z.ltb_ge. lia. }
  destruct ((- 2 ^ 63 <=? k) && (k <? 2 ^ 63)); [eexists; reflexivity |].
  destruct ((2 ^ 63 <=? k) && (k <? 2 ^ 64)); eexists; reflexivity.
Qed.

(** For an index of machine-word size it is the IndexError that names the
    index, the axis and its size. *)
Lemma normalize_index_word (k : Z) (axis size : nat) :
  Z.of_nat size <= k \/ k < - Z.of_nat size ->
  - 2 ^ 63 <= k < 2 ^ 63 ->
  normalize_index k axis size = inl (IndexError k axis size).
Proof.
  intros H [Hlo Hhi]. unfold normalize_index.
  assert ((0 <=? k) && (k <? Z.of_nat size) = false) as ->.
  { apply andb_false_iff. rewrite Z.leb_gt, Z.ltb_ge. lia. }
  assert ((- Z.of_nat size <=? k) && (k <? 0) = false) as ->.
  { apply andb_false_iff. rewrite Z.leb_gt, Z.ltb_ge. lia. }
  apply Z.leb_le in Hlo. apply Z.ltb_lt in Hhi. rewrite Hlo, Hhi. reflexivity.
Qed.

Lemma ndarray_wf_rows (a : ndarray) (i : nat) (row : list float) :
  ndarray_wf a = true -> rows a !! i = Some row -> length row = shape1 a.
Proof.
  unfold ndarray_wf. intros Hwf Hrow.
  apply andb_prop in Hwf as [_ Hall].
  rewrite forallb_forall in Hall.
  apply Nat.eqb_eq, Hall, list_elem_of_In.
  eapply list_elem_of_lookup_2; eassumption.
Qed.

Lemma ndarray_wf_length (a : ndarray) :
  ndarray_wf a = true -> length (rows a) = shape0 a.
Proof.
  unfold ndarray_wf. intros Hwf.
  apply andb_prop in Hwf as [Hlen _]. apply Nat.eqb_eq, Hlen.
Qed.

(** In a well-formed array the entries of [column a j] are the [j]-th
    entries of the rows. *)
Lemma column_lookup (a : ndarray) (j i : nat) (row : list float) :
  ndarray_wf a = true -> (j < shape1 a)%nat ->
  rows a !! i = Some row -> column a j !! i = row !! j.
Proof.
  intros Hwf Hj Hrow. unfold column.
  rewrite list_lookup_fmap, Hrow. cbn.
  pose proof (ndarray_wf_rows a i row Hwf Hrow) as Hlen.
  destruct (lookup_lt_is_Some_2 row j) as [x Hx]; [lia |].
  rewrite Hx. f_equal. rewrite nth_lookup, Hx. reflexivity.
Qed.

Lemma column_length (a : ndarray) (j : nat) :
  ndarray_wf a = true -> length (column a j) = shape0 a.
Proof.
  intros Hwf. unfold column. rewrite length_map. apply ndarray_wf_length, Hwf.
Qed.

(** *** File names *)

(** [str] is one-to-one: the decimal text read back gives the number. *)
Lemma str_inj (a b : Z) : str a = str b -> a = b.
Proof.
  unfold str. intros H.
  assert (forall n, NilZero.int_of_string (NilZero.string_of_int (Z.to_int n))
                    = Some (Z.to_int n)) as Hread.
  { intros n. apply NilZero.isi; destruct n; cbn; try discriminate;
      intros [= Hnil]; exact (DecimalPos.Unsigned.to_uint_nonnil _ Hnil). }
  apply DecimalZ.to_int_inj.
  pose proof (Hread a) as Ha. rewrite H, Hread in Ha. congruence.
Qed.

Lemma string_length_app (s t : string) :
  String.length (s +:+ t) = (String.length s + String.length t)%nat.
Proof. induction s as [| c s IH]; simpl; [reflexivity | congruence]. Qed.

Lemma string_app_inv_tail (s1 s2 t : string) : s1 +:+ t = s2 +:+ t -> s1 = s2.
Proof.
  revert s2. induction s1 as [| c s1 IH]; intros [| d s2] H.
  - reflexivity.
  - apply (f_equal String.length) in H.
    rewrite !string_length_app in H. simpl in H. lia.
  - apply (f_equal String.length) in H.
    rewrite !string_length_app in H. simpl in H. lia.
  - simpl in H. injection H as -> H. f_equal. apply IH, H.
Qed.

(** For one label, different indices give different cube files. *)
Lemma cube_files_distinct (mol_name : string) (a b : Z) :
  mol_name +:+ "_mol_" +:+ str a +:+ ".cub"
  = mol_name +:+ "_mol_" +:+ str b +:+ ".cub" -> a = b.
Proof.
  intros H. apply (inj (String.app mol_name)) in H.
  apply (inj (String.app "_mol_")) in H.
  apply str_inj, (string_app_inv_tail _ _ ".cub"), H.
Qed.

(** *** The four functions, run *)

(** A run of [gen_mol] is one [build()] and what came back from it. *)
Lemma run_gen_mol (lib : env) (coords : string) (b o : option string)
    (q : option Z) (w : world) :
  run lib (gen_mol coords b o q) w =
  match lib _ (Mole_build (mol_request coords b o q)) w with
  | (inr parsed, w') =>
      mk_outcome (inr (set__atom parsed (mol_request coords b o q))) w'
                 [EvBuild (mol_request coords b o q)]
  | (inl e, w') => mk_outcome (inl e) w' [EvBuild (mol_request coords b o q)]
  end.
Proof.
  unfold gen_mol, mol_request. cbn.
  destruct (lib _ _ w) as [[e | parsed] w']; reflexivity.
Qed.

(** A run of [run_dft] is one solver call and what came back from it. *)
Lemma run_run_dft (lib : env) (m : Mole) (xc_func : option string) (w : world) :
  run lib (run_dft m xc_func) w =
  match lib _ (KS_kernel (dft_request m xc_func)) w with
  | (inr r, w') =>
      mk_outcome (inr (store_result r (dft_request m xc_func))) w'
                 [EvKernel (dft_request m xc_func)]
  | (inl e, w') => mk_outcome (inl e) w' [EvKernel (dft_request m xc_func)]
  end.
Proof.
  unfold run_dft, dft_request. cbn.
  destruct (lib _ _ w) as [[e | r] w']; reflexivity.
Qed.

(** C9. Whatever molecule and functional [run_dft] is called with, and
    whatever the library answers, the solver is asked exactly once, on the
    given molecule, with the iteration cap 300; the object that comes back
    carries the same cap.  The function takes a molecule and a functional
    and nothing else, so there is no argument through which a caller could
    choose another cap. *)
Theorem run_dft_cap_is_300 (lib : env) (m : Mole) (xc_func : option string)
    (w : world) :
  (exists mf0, calls (run lib (run_dft m xc_func) w) = [EvKernel mf0]
               /\ mol mf0 = m /\ max_cycle mf0 = 300)
  /\ match result (run lib (run_dft m xc_func) w) with
     | inr mf => max_cycle mf = 300
     | inl _ => True
     end.
Proof.
  rewrite run_run_dft.
  destruct (lib _ _ w) as [[e | r] w']; cbn; split; eauto.
Qed.

(** A run of [gen_orb]: the slice is taken first; only when that went
    through is the grid generator called, once. *)
Lemma run_gen_orb (lib : env) (mol_name : string) (orb_num : Z) (mf : KS)
    (w : world) :
  run lib (gen_orb mol_name orb_num mf) w =
  match mo_coeff_col mf (orb_num - 1) with
  | inr col =>
      run lib (perform (cubegen_orbital (mol mf)
                 (mol_name +:+ "_mol_" +:+ str orb_num +:+ ".cub") col)) w
  | inl e => mk_outcome (inl e) w []
  end.
Proof.
  unfold gen_orb. destruct (mo_coeff_col mf (orb_num - 1)) as [e | col]; cbn.
  - reflexivity.
  - destruct (lib _ _ w) as [[e | []] w']; reflexivity.
Qed.

(** *** Energy evaluation *)

(** C2, as the code has it. [run_dft] asks the solver exactly once, with the
    cap 300 it sets itself, whatever the outcome: there is no second attempt.
    An exception raised by the solver is the exception the caller gets, and
    the world is left as the solver left it.  When the solver returns,
    converged or not, [run_dft] returns the object with the solver's results
    stored on it: the flag [converged] is copied, never tested. *)
Theorem run_dft_single_attempt (lib : env) (m : Mole) (xc_func : option string)
    (w : world) :
  calls (run lib (run_dft m xc_func) w) = [EvKernel (dft_request m xc_func)]
  /\ max_cycle (dft_request m xc_func) = 300
  /\ final (run lib (run_dft m xc_func) w)
     = (lib _ (KS_kernel (dft_request m xc_func)) w).2
  /\ match (lib _ (KS_kernel (dft_request m xc_func)) w).1 with
     | inl e => result (run lib (run_dft m xc_func) w) = inl e
     | inr r =>
         exists mf, result (run lib (run_dft m xc_func) w) = inr mf
                    /\ converged mf = res_converged r
                    /\ e_tot mf = res_e_tot r
                    /\ mo_coeff mf = Some (res_mo_coeff r)
                    /\ mol mf = m
     end.
Proof.
  rewrite run_run_dft.
  destruct (lib _ _ w) as [[e | r] w']; cbn; repeat split; eauto 10.
Qed.

(** C2 fails as stated: with a solver that uses up its 300 cycles and
    returns with [converged] false, [run_dft] on the water molecule does not
    fail; it returns the unconverged state. *)
Lemma run_dft_returns_unconverged :
  not_converged stalling (dft_request sample_mol None) empty_world
  /\ (forall e, result (run stalling (run_dft sample_mol None) empty_world) <> inl e)
  /\ (exists mf, result (run stalling (run_dft sample_mol None) empty_world) = inr mf
                 /\ converged mf = false).
Proof.
  split; [reflexivity |]. split.
  - intros e H. discriminate H.
  - eexists. split; reflexivity.
Qed.

(** *** Molecule construction *)

(** A run of [calc_e]: a [build()], then, if that went through, one solver
    call on the molecule just built. *)
Lemma run_calc_e (lib : env) (coords : string) (basis_arg xc_func : option string)
    (w : world) :
  let m0 := mol_request coords (Some (default default_basis basis_arg)) None None in
  run lib (calc_e coords basis_arg xc_func) w =
  match lib _ (Mole_build m0) w with
  | (inl e, w') => mk_outcome (inl e) w' [EvBuild m0]
  | (inr parsed, w') =>
      let mf0 := dft_request (set__atom parsed m0)
                   (Some (default default_xc_func xc_func)) in
      match lib _ (KS_kernel mf0) w' with
      | (inl e, w'') => mk_outcome (inl e) w'' [EvBuild m0; EvKernel mf0]
      | (inr r, w'') =>
          mk_outcome (inr (store_result r mf0)) w'' [EvBuild m0; EvKernel mf0]
      end
  end.
Proof.
  unfold calc_e, gen_mol, run_dft, mol_request, dft_request. cbn.
  destruct (lib _ _ w) as [[e | parsed] w']; [reflexivity |]. cbn.
  destruct (lib _ _ w') as [[e | r] w'']; reflexivity.
Qed.

(** C10. Whatever coordinate block, basis and functional [calc_e] is called
    with, and whatever the library answers, the first call it makes is the
    [build()] of a molecule with charge 0 (and with the given coordinates
    and basis), no other molecule is ever built, and the molecule inside any
    state it returns has charge 0: [calc_e] passes no charge on, so the
    default of [gen_mol] applies. *)
Theorem calc_e_charge_zero (lib : env) (coords : string)
    (basis_arg xc_func : option string) (w : world) :
  (exists m0 rest, calls (run lib (calc_e coords basis_arg xc_func) w)
                   = EvBuild m0 :: rest
                   /\ charge m0 = 0 /\ atom m0 = coords
                   /\ basis m0 = default default_basis basis_arg)
  /\ Forall (fun ev => match ev with
                       | EvBuild m' => charge m' = 0
                       | EvKernel mf => charge (mol mf) = 0
                       | _ => True
                       end)
            (calls (run lib (calc_e coords basis_arg xc_func) w))
  /\ match result (run lib (calc_e coords basis_arg xc_func) w) with
     | inr mf => charge (mol mf) = 0
     | inl _ => True
     end.
Proof.
  rewrite run_calc_e.
  destruct (lib _ _ w) as [[e | parsed] w']; cbn.
  - repeat split; eauto 10; repeat constructor.
  - destruct (lib _ _ w') as [[e | r] w'']; cbn;
      (repeat split; eauto 10; repeat constructor).
Qed.

(** C6. Two calls of [gen_mol] with the same arguments, in any two worlds
    and against any two library behaviours, that both return a molecule,
    return molecules with the same coordinate block, basis and charge (and
    verbosity and log path); when [build()] answers the two calls alike, the
    two molecules are equal altogether, parsed atoms included. *)
Theorem gen_mol_deterministic (lib1 lib2 : env) (coords : string)
    (b o : option string) (q : option Z) (w1 w2 : world) (m1 m2 : Mole) :
  result (run lib1 (gen_mol coords b o q) w1) = inr m1 ->
  result (run lib2 (gen_mol coords b o q) w2) = inr m2 ->
  (atom m1 = atom m2 /\ basis m1 = basis m2 /\ charge m1 = charge m2
   /\ verbose m1 = verbose m2 /\ output m1 = output m2)
  /\ ((lib1 _ (Mole_build (mol_request coords b o q)) w1).1
      = (lib2 _ (Mole_build (mol_request coords b o q)) w2).1 -> m1 = m2).
Proof.
  rewrite !run_gen_mol.
  destruct (lib1 _ _ w1) as [[e1 | p1] w1'], (lib2 _ _ w2) as [[e2 | p2] w2'];
    cbn; intros H1 H2; try discriminate.
  injection H1 as <-. injection H2 as <-.
  split; [repeat split |]. intros H. injection H as ->. reflexivity.
Qed.

Lemma gen_mol_deterministic_witness :
  exists m1 m2,
    result (run converging (gen_mol water_coords None None None) empty_world) = inr m1
    /\ result (run converging (gen_mol water_coords None None None) used_world) = inr m2
    /\ (atom m1 = atom m2 /\ basis m1 = basis m2 /\ charge m1 = charge m2
        /\ verbose m1 = verbose m2 /\ output m1 = output m2)
    /\ m1 = m2.
Proof.
  eexists _, _.
  split; [reflexivity |]. split; [reflexivity |].
  pose proof (gen_mol_deterministic converging converging water_coords
                None None None empty_world used_world _ _ eq_refl eq_refl)
    as [Hattrs Hall].
  split; [exact Hattrs | apply Hall; reflexivity].
Defined.



(** *** Orbital export *)

Lemma calls_gen_orb (lib : env) (mol_name : string) (orb_num : Z) (mf : KS)
    (w : world) :
  calls (run lib (gen_orb mol_name orb_num mf) w) =
  match mo_coeff_col mf (orb_num - 1) with
  | inr col =>
      [EvCubegen (mol mf) (mol_name +:+ "_mol_" +:+ str orb_num +:+ ".cub") col]
  | inl _ => []
  end.
Proof.
  rewrite run_gen_orb. destruct (mo_coeff_col mf (orb_num - 1)); [reflexivity |].
  rewrite run_perform. reflexivity.
Qed.

Lemma mo_coeff_col_in_range (mf : KS) (a : ndarray) (n : Z) :
  mo_coeff mf = Some a -> 1 <= n <= Z.of_nat (shape1 a) ->
  mo_coeff_col mf (n - 1) = inr (column a (Z.to_nat (n - 1))).
Proof.
  intros Ha Hn. unfold mo_coeff_col, getitem_col. rewrite Ha.
  rewrite normalize_index_front by lia. reflexivity.
Qed.

Lemma mo_coeff_col_zero (mf : KS) (a : ndarray) :
  mo_coeff mf = Some a -> (0 < shape1 a)%nat ->
  mo_coeff_col mf (0 - 1) = inr (column a (shape1 a - 1)).
Proof.
  intros Ha Hn. unfold mo_coeff_col, getitem_col. rewrite Ha.
  rewrite normalize_index_back by lia.
  replace (Z.to_nat (0 - 1 + Z.of_nat (shape1 a))) with (shape1 a - 1)%nat by lia.
  reflexivity.
Qed.



(** C3. For every label, index and state, the only call [gen_orb] can make
    is the grid generator's, and the file it names there is the label, then
    "_mol_", then the index in decimal, then ".cub"; the call is made
    whenever the slice of the coefficient matrix goes through.  For the
    label "benzene" and the index 17 the file is "benzene_mol_17.cub". *)
Theorem gen_orb_file_name (lib : env) (mf : KS) (w : world) :
  (forall (mol_name : string) (orb_num : Z),
     calls (run lib (gen_orb mol_name orb_num mf) w) =
     match mo_coeff_col mf (orb_num - 1) with
     | inr col =>
         [EvCubegen (mol mf) (mol_name +:+ "_mol_" +:+ str orb_num +:+ ".cub") col]
     | inl _ => []
     end)
  /\ (forall col, mo_coeff_col mf 16 = inr col ->
        calls (run lib (gen_orb "benzene" 17 mf) w)
        = [EvCubegen (mol mf) "benzene_mol_17.cub" col]).
Proof.
  split.
  - intros mol_name orb_num. apply calls_gen_orb.
  - intros col Hcol. rewrite calls_gen_orb.
    change (17 - 1) with 16. rewrite Hcol. reflexivity.
Qed.

Lemma gen_orb_file_name_witness :
  mo_coeff_col wide_mf 16 = inr [0.75%float]
  /\ calls (run converging (gen_orb "benzene" 17 wide_mf) empty_world)
     = [EvCubegen sample_mol "benzene_mol_17.cub" [0.75%float]].
Proof.
  split; [reflexivity |].
  exact (proj2 (gen_orb_file_name converging wide_mf empty_world)
           [0.75%float] eq_refl).
Defined.

(** C4. For a state whose coefficient matrix [a] is well formed and an
    index [orb_num] between 1 and the number of columns, [gen_orb] makes
    one call, to the grid generator, on the state's molecule, and the
    coefficients it passes are the column of [a] at 0-based position
    [orb_num - 1]: one entry per row, the entry of row [i] being that row's
    entry at position [orb_num - 1]. *)
Theorem gen_orb_passes_column (lib : env) (mol_name : string) (orb_num : Z)
    (mf : KS) (a : ndarray) (w : world) :
  mo_coeff mf = Some a ->
  ndarray_wf a = true ->
  1 <= orb_num <= Z.of_nat (shape1 a) ->
  exists col,
    calls (run lib (gen_orb mol_name orb_num mf) w)
    = [EvCubegen (mol mf) (mol_name +:+ "_mol_" +:+ str orb_num +:+ ".cub") col]
    /\ length col = shape0 a
    /\ forall (i : nat) (row : list float),
         rows a !! i = Some row -> col !! i = row !! Z.to_nat (orb_num - 1).
Proof.
  intros Ha Hwf Hn. exists (column a (Z.to_nat (orb_num - 1))).
  rewrite calls_gen_orb, (mo_coeff_col_in_range mf a orb_num Ha Hn).
  split; [reflexivity |]. split; [apply column_length, Hwf |].
  intros i row Hrow. apply column_lookup; [assumption | lia | assumption].
Qed.

Lemma gen_orb_passes_column_witness :
  exists col,
    calls (run converging (gen_orb "water" 2 sample_mf) empty_world)
    = [EvCubegen sample_mol ("water" +:+ "_mol_" +:+ str 2 +:+ ".cub") col]
    /\ length col = 2%nat
    /\ forall (i : nat) (row : list float),
         rows sample_coeff !! i = Some row -> col !! i = row !! Z.to_nat (2 - 1).
Proof.
  apply (gen_orb_passes_column converging "water" 2 sample_mf sample_coeff
           empty_world); [reflexivity | reflexivity | cbn; lia].
Defined.

(** C8. For a state whose coefficient matrix is well formed and has at
    least one column, [gen_orb] with index 0 raises nothing of its own: the
    slice [mo_coeff[:, -1]] is the last column, and the run is the single
    call of the grid generator on that column with the file
    "<label>_mol_0.cub", result and world being whatever that call gives. *)
Theorem gen_orb_index_0_wraps (lib : env) (mol_name : string) (mf : KS)
    (a : ndarray) (w : world) :
  mo_coeff mf = Some a ->
  ndarray_wf a = true ->
  (0 < shape1 a)%nat ->
  exists col,
    run lib (gen_orb mol_name 0 mf) w
    = run lib (perform (cubegen_orbital (mol mf) (mol_name +:+ "_mol_0.cub") col)) w
    /\ calls (run lib (gen_orb mol_name 0 mf) w)
       = [EvCubegen (mol mf) (mol_name +:+ "_mol_0.cub") col]
    /\ result (run lib (gen_orb mol_name 0 mf) w)
       = (lib _ (cubegen_orbital (mol mf) (mol_name +:+ "_mol_0.cub") col) w).1
    /\ length col = shape0 a
    /\ forall (i : nat) (row : list float),
         rows a !! i = Some row -> col !! i = last row.
Proof.
  intros Ha Hwf Hn. exists (column a (shape1 a - 1)).
  rewrite run_gen_orb, (mo_coeff_col_zero mf a Ha Hn).
  change (str 0) with "0".
  change ("_mol_" +:+ "0" +:+ ".cub") with "_mol_0.cub".
  rewrite run_perform. cbn.
  repeat split; [apply column_length, Hwf |].
  intros i row Hrow.
  rewrite (column_lookup a _ i row Hwf) by (lia || assumption).
  rewrite last_lookup, (ndarray_wf_rows a i row Hwf Hrow).
  f_equal. lia.
Qed.

Lemma gen_orb_index_0_wraps_witness :
  exists col,
    run converging (gen_orb "water" 0 sample_mf) empty_world
    = run converging
        (perform (cubegen_orbital sample_mol ("water" +:+ "_mol_0.cub") col))
        empty_world
    /\ calls (run converging (gen_orb "water" 0 sample_mf) empty_world)
       = [EvCubegen sample_mol ("water" +:+ "_mol_0.cub") col]
    /\ result (run converging (gen_orb "water" 0 sample_mf) empty_world)
       = (converging _ (cubegen_orbital sample_mol ("water" +:+ "_mol_0.cub") col)
            empty_world).1
    /\ length col = 2%nat
    /\ forall (i : nat) (row : list float),
         rows sample_coeff !! i = Some row -> col !! i = last row.
Proof.
  apply (gen_orb_index_0_wraps converging "water" sample_mf sample_coeff
           empty_world); [reflexivity | reflexivity | cbn; lia].
Defined.




(** The export cell of the notebook, on a state with 21 orbitals: six
    lines printed, six files asked for, "benzene_mol_17.cub" among them. *)
Example export_loop_files :
  omap (fun ev => match ev with EvCubegen _ f _ => Some f | _ => None end)
       (calls (run converging (export_loop range_16_22 wide_mf) empty_world))
  = ["benzene_mol_16.cub"; "benzene_mol_17.cub"; "benzene_mol_18.cub";
     "benzene_mol_19.cub"; "benzene_mol_20.cub"; "benzene_mol_21.cub"].
Proof. reflexivity. Qed.

Example export_loop_prints :
  stdout (final (run converging (export_loop range_16_22 wide_mf) empty_world))
  = ["Writing orbital 16"; "Writing orbital 17"; "Writing orbital 18";
     "Writing orbital 19"; "Writing orbital 20"; "Writing orbital 21"].
Proof. reflexivity. Qed.

(** A solver that raises: the caller of [run_dft] gets that exception. *)
Example run_dft_propagates :
  run (raising (Raised "RuntimeError" "SCF aborted")) (run_dft sample_mol None)
      empty_world
  = mk_outcome (inl (Raised "RuntimeError" "SCF aborted")) empty_world
               [EvKernel (dft_request sample_mol None)].
Proof. reflexivity. Qed.

(** The cells up to the relaxed state: build, solve, optimize with 100
    steps at most, solve again, then the coordinates are asked for,
    rendered and printed. *)
Example relax_calls :
  map (fun ev => match ev with
                 | EvBuild _ => "build"
                 | EvKernel mf => "kernel " +:+ str (max_cycle mf)
                 | EvOptimize _ n => "optimize " +:+ str n
                 | EvCubegen _ f _ => f
                 | EvPrint l => "print " +:+ l
                 | EvAtomCoords _ => "atom_coords"
                 | EvArrayStr _ => "str"
                 end)
      (calls (run converging (relax water_coords) empty_world))
  = ["build"; "kernel 300"; "optimize 100"; "kernel 300"; "atom_coords"; "str";
     "print [[...]]"].
Proof. reflexivity. Qed.

Example str_17 : str 17 = "17".
Proof. reflexivity. Qed.

Example str_0 : str 0 = "0".
Proof. reflexivity. Qed.

Example str_minus_3 : str (-3) = "-3".
Proof. reflexivity. Qed.

Example run_gen_orb_2 :
  calls (run converging (gen_orb "water" 2 sample_mf) empty_world)
  = [EvCubegen sample_mol "water_mol_2.cub" [0.2; 0.5]%float].
Proof. reflexivity. Qed.

(** ** Beyond the four functions: edges, composition, the driver cells *)

(** *** Which indices [gen_orb] takes *)

(** Inside the accepted range the position is the index modulo the size. *)
Lemma normalize_index_mod (k : Z) (axis size : nat) :
  - Z.of_nat size <= k < Z.of_nat size ->
  normalize_index k axis size = inr (Z.to_nat (k mod Z.of_nat size)).
Proof.
  intros H. destruct (Z.neg_nonneg_cases k) as [Hneg | Hpos].
  - rewrite normalize_index_back by lia. do 2 f_equal.
    rewrite <- (Z.mod_small (k + Z.of_nat size) (Z.of_nat size)) by lia.
    rewrite <- (Z.mod_add k 1 (Z.of_nat size)) by lia.
    f_equal. lia.
  - rewrite normalize_index_front by lia. rewrite Z.mod_small by lia. reflexivity.
Qed.

(** X1. [gen_orb] returns without having called the grid generator in two
    cases only: the state holds no coefficient matrix (it was never
    solved), or the index lies outside the accepted range, which is
    [-n < orb_num <= n] for a matrix of [n] columns, zero and negative
    numbers included.  In both cases it raises and leaves the world as it
    was; for an index of machine-word size the exception is the TypeError
    of subscripting [None], respectively numpy's IndexError for the index
    [orb_num - 1] on axis 1. *)
Theorem gen_orb_makes_no_call_iff (lib : env) (mol_name : string) (orb_num : Z)
    (mf : KS) (w : world) :
  (calls (run lib (gen_orb mol_name orb_num mf) w) = []
   <-> match mo_coeff mf with
       | None => True
       | Some a => Z.of_nat (shape1 a) < orb_num \/ orb_num <= - Z.of_nat (shape1 a)
       end)
  /\ (calls (run lib (gen_orb mol_name orb_num mf) w) = [] ->
      final (run lib (gen_orb mol_name orb_num mf) w) = w
      /\ (exists e, result (run lib (gen_orb mol_name orb_num mf) w) = inl e)
      /\ (- 2 ^ 63 <= orb_num - 1 < 2 ^ 63 ->
          result (run lib (gen_orb mol_name orb_num mf) w)
          = inl match mo_coeff mf with
                | None => TypeError "'NoneType' object is not subscriptable"
                | Some a => IndexError (orb_num - 1) 1 (shape1 a)
                end)).
Proof.
  rewrite run_gen_orb. unfold mo_coeff_col, getitem_col.
  destruct (mo_coeff mf) as [a |]; [| cbn; intuition eauto].
  destruct (Z_lt_le_dec (Z.of_nat (shape1 a)) orb_num) as [Habove | Hle];
    [| destruct (Z_le_gt_dec orb_num (- Z.of_nat (shape1 a))) as [Hbelow | Hgt]].
  - destruct (normalize_index_outside (orb_num - 1) 1 (shape1 a)) as [e He]; [lia |].
    split; [rewrite He; cbn; tauto |]. intros _.
    split; [rewrite He; reflexivity |]. split; [rewrite He; cbn; eauto |].
    intros Hword. rewrite normalize_index_word by lia. reflexivity.
  - destruct (normalize_index_outside (orb_num - 1) 1 (shape1 a)) as [e He]; [lia |].
    split; [rewrite He; cbn; tauto |]. intros _.
    split; [rewrite He; reflexivity |]. split; [rewrite He; cbn; eauto |].
    intros Hword. rewrite normalize_index_word by lia. reflexivity.
  - rewrite normalize_index_mod by lia. rewrite run_perform. cbn.
    split; [split |].
    + intros H. discriminate H.
    + lia.
    + intros H. discriminate H.
Qed.

(** X2. For every index in the accepted range [-n < orb_num <= n], the column
    handed to the grid generator is the one at 0-based position
    [(orb_num - 1) mod n]. *)
Theorem gen_orb_column_modulo (lib : env) (mol_name : string) (orb_num : Z)
    (mf : KS) (a : ndarray) (w : world) :
  mo_coeff mf = Some a ->
  - Z.of_nat (shape1 a) < orb_num <= Z.of_nat (shape1 a) ->
  calls (run lib (gen_orb mol_name orb_num mf) w)
  = [EvCubegen (mol mf) (mol_name +:+ "_mol_" +:+ str orb_num +:+ ".cub")
               (column a (Z.to_nat ((orb_num - 1) mod Z.of_nat (shape1 a))))].
Proof.
  intros Ha Hn. rewrite calls_gen_orb. unfold mo_coeff_col, getitem_col.
  rewrite Ha, normalize_index_mod by lia. reflexivity.
Qed.

Lemma gen_orb_column_modulo_witness :
  calls (run converging (gen_orb "water" (-1) sample_mf) empty_world)
  = [EvCubegen sample_mol "water_mol_-1.cub" [0.2; 0.5]%float].
Proof.
  apply (gen_orb_column_modulo converging "water" (-1) sample_mf sample_coeff
           empty_world); [reflexivity | cbn; lia].
Defined.

(** X3. An orbital number [orb_num] between 1 and [n] and the non-positive
    number [orb_num - n] make [gen_orb] export the same coefficients, into
    two different files. *)
Theorem gen_orb_negative_alias (lib : env) (mol_name : string) (orb_num : Z)
    (mf : KS) (a : ndarray) (w1 w2 : world) :
  mo_coeff mf = Some a ->
  1 <= orb_num <= Z.of_nat (shape1 a) ->
  exists col f1 f2,
    calls (run lib (gen_orb mol_name orb_num mf) w1) = [EvCubegen (mol mf) f1 col]
    /\ calls (run lib (gen_orb mol_name (orb_num - Z.of_nat (shape1 a)) mf) w2)
       = [EvCubegen (mol mf) f2 col]
    /\ f1 <> f2.
Proof.
  intros Ha Hn.
  eexists _, _, _. rewrite !calls_gen_orb. unfold mo_coeff_col, getitem_col.
  rewrite Ha, !normalize_index_mod by lia.
  replace (orb_num - Z.of_nat (shape1 a) - 1)
    with (orb_num - 1 + (-1) * Z.of_nat (shape1 a)) by lia.
  rewrite Z.mod_add by lia.
  split; [reflexivity |]. split; [reflexivity |].
  intros H. apply cube_files_distinct in H. lia.
Qed.

Lemma gen_orb_negative_alias_witness :
  exists col f1 f2,
    calls (run converging (gen_orb "water" 2 sample_mf) empty_world)
    = [EvCubegen sample_mol f1 col]
    /\ calls (run converging (gen_orb "water" (2 - 3) sample_mf) used_world)
       = [EvCubegen sample_mol f2 col]
    /\ f1 <> f2.
Proof.
  apply (gen_orb_negative_alias converging "water" 2 sample_mf sample_coeff
           empty_world used_world); [reflexivity | cbn; lia].
Defined.

(** *** One file per request *)

Lemma string_app_assoc (s t u : string) : (s +:+ t) +:+ u = s +:+ t +:+ u.
Proof.
  induction s as [| c s IH]; [reflexivity |].
  change (String c ((s +:+ t) +:+ u) = String c (s +:+ t +:+ u)).
  rewrite IH. reflexivity.
Qed.

Lemma no_underscore_app (s t : string) :
  no_underscore (s +:+ t) = no_underscore s && no_underscore t.
Proof.
  induction s as [| c s IH]; simpl; [reflexivity |].
  rewrite IH. apply andb_assoc.
Qed.

Lemma no_underscore_uint (d : Decimal.uint) :
  no_underscore (NilEmpty.string_of_uint d) = true.
Proof. induction d; simpl; assumption || reflexivity. Qed.

Lemma str_no_underscore (n : Z) : no_underscore (str n) = true.
Proof.
  unfold str. destruct (Z.to_int n) as [d | d]; simpl.
  - destruct d; simpl; try reflexivity; apply no_underscore_uint.
  - destruct d; simpl; try reflexivity; apply no_underscore_uint.
Qed.

(** A text is cut in one way only at its last underscore. *)
Lemma last_underscore_unique (u1 u2 d1 d2 : string) :
  no_underscore d1 = true -> no_underscore d2 = true ->
  u1 +:+ String "_" d1 = u2 +:+ String "_" d2 -> u1 = u2 /\ d1 = d2.
Proof.
  intros H1 H2. revert u2.
  induction u1 as [| c u1 IH]; intros [| c' u2] H; simpl in H.
  - injection H as <-. split; reflexivity.
  - injection H as <- ->.
    rewrite no_underscore_app in H1. simpl in H1.
    rewrite andb_false_r in H1. discriminate H1.
  - injection H as -> <-.
    rewrite no_underscore_app in H2. simpl in H2.
    rewrite andb_false_r in H2. discriminate H2.
  - injection H as -> H. destruct (IH _ H) as [-> ->]. split; reflexivity.
Qed.

(** The name of a cube file tells both the label and the index. *)
Lemma cube_file_inj (l1 l2 : string) (n1 n2 : Z) :
  l1 +:+ "_mol_" +:+ str n1 +:+ ".cub" = l2 +:+ "_mol_" +:+ str n2 +:+ ".cub" ->
  l1 = l2 /\ n1 = n2.
Proof.
  intros H.
  change ("_mol_" +:+ str n1 +:+ ".cub")
    with ("_mol" +:+ String "_" (str n1 +:+ ".cub")) in H.
  change ("_mol_" +:+ str n2 +:+ ".cub")
    with ("_mol" +:+ String "_" (str n2 +:+ ".cub")) in H.
  rewrite <- !string_app_assoc in H.
  apply last_underscore_unique in H as [Hl Hn].
  - split.
    + apply (string_app_inv_tail _ _ "_mol"), Hl.
    + apply str_inj, (string_app_inv_tail _ _ ".cub"), Hn.
  - rewrite no_underscore_app, str_no_underscore. reflexivity.
  - rewrite no_underscore_app, str_no_underscore. reflexivity.
Qed.

(** X4. The name handed to the grid generator tells the request: two exports
    that pass it the same file name were made with the same label and the
    same index.  (This is about the name as a text; two different names
    can still lead to one file on disk.) *)
Theorem gen_orb_outfile_injective (lib1 lib2 : env) (l1 l2 : string) (n1 n2 : Z)
    (mf1 mf2 : KS) (w1 w2 : world) (m1 m2 : Mole) (f : string)
    (c1 c2 : list float) :
  calls (run lib1 (gen_orb l1 n1 mf1) w1) = [EvCubegen m1 f c1] ->
  calls (run lib2 (gen_orb l2 n2 mf2) w2) = [EvCubegen m2 f c2] ->
  l1 = l2 /\ n1 = n2.
Proof.
  rewrite !calls_gen_orb.
  destruct (mo_coeff_col mf1 (n1 - 1)); [discriminate |].
  destruct (mo_coeff_col mf2 (n2 - 1)); [discriminate |].
  intros [= _ <- _] [= _ H _]. symmetry in H. apply cube_file_inj, H.
Qed.

Lemma gen_orb_outfile_injective_witness :
  "benzene" = "benzene" /\ 17 = 17.
Proof.
  apply (gen_orb_outfile_injective converging stalling "benzene" "benzene" 17 17
           wide_mf wide_mf empty_world used_world sample_mol sample_mol
           "benzene_mol_17.cub" [0.75%float] [0.75%float]); reflexivity.
Defined.

(** *** The export loop *)

Lemma run_export_loop_cons (lib : env) (idx : Z) (rest : list Z) (mf : KS)
    (w : world) :
  run lib (export_loop (idx :: rest) mf) w =
  match lib _ (builtins_print ("Writing orbital " +:+ str idx)) w with
  | (inl e, w1) => mk_outcome (inl e) w1 [EvPrint ("Writing orbital " +:+ str idx)]
  | (inr _, w1) =>
      let o := run lib (gen_orb "benzene" idx mf) w1 in
      match result o with
      | inl e =>
          mk_outcome (inl e) (final o)
                     (EvPrint ("Writing orbital " +:+ str idx) :: calls o)
      | inr _ =>
          let o' := run lib (export_loop rest mf) (final o) in
          mk_outcome (result o') (final o')
                     (EvPrint ("Writing orbital " +:+ str idx) :: calls o ++ calls o')
      end
  end.
Proof.
  change (export_loop (idx :: rest) mf)
    with (Do (builtins_print ("Writing orbital " +:+ str idx))
             (fun _ => gen_orb "benzene" idx mf ≫= fun _ => export_loop rest mf)).
  cbn [run]. destruct (lib _ _ w) as [[e | []] w1]; [reflexivity |].
  rewrite run_bind. cbn zeta.
  destruct (result (run lib (gen_orb "benzene" idx mf) w1)); reflexivity.
Qed.

(** The calls of one [gen_orb] are at most one, a grid-generator call for
    the file of its index; a [gen_orb] that returned has made it. *)
Lemma outfiles_gen_orb (lib : env) (mol_name : string) (orb_num : Z) (mf : KS)
    (w : world) :
  (outfiles (calls (run lib (gen_orb mol_name orb_num mf) w)) = []
   /\ exists e, result (run lib (gen_orb mol_name orb_num mf) w) = inl e)
  \/ outfiles (calls (run lib (gen_orb mol_name orb_num mf) w))
     = [mol_name +:+ "_mol_" +:+ str orb_num +:+ ".cub"].
Proof.
  rewrite run_gen_orb. destruct (mo_coeff_col mf (orb_num - 1)) as [e | col].
  - left. cbn. eauto.
  - right. rewrite run_perform. reflexivity.
Qed.

Lemma outfiles_app (l1 l2 : list event) :
  outfiles (l1 ++ l2) = (outfiles l1 ++ outfiles l2)%list.
Proof. apply omap_app. Qed.

(** X5. Whatever the state, the indices and the library, the files the loop
    asks the grid generator for are the files of the indices, in the order
    of the list and without a gap, up to the point the loop got to; a loop
    that returned has asked for all of them; and when no index occurs twice
    in the list, no file is asked for twice. *)
Theorem export_loop_outfiles (lib : env) (idxs : list Z) (mf : KS) (w : world) :
  outfiles (calls (run lib (export_loop idxs mf) w))
    `prefix_of` map (fun idx => "benzene_mol_" +:+ str idx +:+ ".cub") idxs
  /\ (result (run lib (export_loop idxs mf) w) = inr tt ->
      outfiles (calls (run lib (export_loop idxs mf) w))
      = map (fun idx => "benzene_mol_" +:+ str idx +:+ ".cub") idxs)
  /\ (NoDup idxs -> NoDup (outfiles (calls (run lib (export_loop idxs mf) w)))).
Proof.
  assert (forall w,
    outfiles (calls (run lib (export_loop idxs mf) w))
      `prefix_of` map (fun idx => "benzene_mol_" +:+ str idx +:+ ".cub") idxs
    /\ (result (run lib (export_loop idxs mf) w) = inr tt ->
        outfiles (calls (run lib (export_loop idxs mf) w))
        = map (fun idx => "benzene_mol_" +:+ str idx +:+ ".cub") idxs)) as Hloop.
  { induction idxs as [| idx rest IH]; intros w'.
    - split; [apply prefix_nil | reflexivity].
    - rewrite run_export_loop_cons.
      destruct (lib _ _ w') as [[e | []] w1].
      { split; [apply prefix_nil | discriminate]. }
      cbn zeta.
      destruct (outfiles_gen_orb lib "benzene" idx mf w1) as [[Hnone [e He]] | Hone].
      + rewrite He. cbn [calls result]. change (outfiles (?x :: ?l)) with (outfiles l).
        rewrite Hnone. split; [apply prefix_nil | discriminate].
      + destruct (result (run lib (gen_orb "benzene" idx mf) w1)) as [e | []];
          cbn [calls result]; change (outfiles (EvPrint ?x :: ?l)) with (outfiles l).
        * rewrite Hone. split; [| discriminate].
          apply prefix_cons, prefix_nil.
        * rewrite outfiles_app, Hone.
          destruct (IH (final (run lib (gen_orb "benzene" idx mf) w1))) as [Hpre Hall].
          split.
          -- apply prefix_cons, Hpre.
          -- intros Hres. cbn. f_equal. apply Hall, Hres. }
  destruct (Hloop w) as [Hpre Hall]. split; [exact Hpre |]. split; [exact Hall |].
  intros Hnodup. destruct Hpre as [k Hk].
  assert (NoDup (map (fun idx => "benzene_mol_" +:+ str idx +:+ ".cub") idxs)) as Hfiles.
  { apply NoDup_fmap_2_strong; [| exact Hnodup].
    intros x y _ _ Hxy. apply (cube_file_inj "benzene" "benzene"), Hxy. }
  rewrite Hk in Hfiles. apply NoDup_app in Hfiles as [Hfiles _]. exact Hfiles.
Qed.

Lemma export_loop_outfiles_witness :
  NoDup range_16_22
  /\ NoDup (outfiles (calls (run converging (export_loop range_16_22 wide_mf)
                              empty_world))).
Proof.
  assert (NoDup range_16_22) as Hnodup
    by (apply (bool_decide_unpack _); vm_compute; reflexivity).
  split; [exact Hnodup |].
  exact (proj2 (proj2 (export_loop_outfiles converging range_16_22 wide_mf
                         empty_world)) Hnodup).
Defined.

(** X6. With every index between 1 and the number of columns, the loop
    alternates: a line "Writing orbital <idx>", then the export of the
    column at position [idx - 1] to "benzene_mol_<idx>.cub".  The log of a
    run is an initial part of that sequence, and all of it when the loop
    returned. *)
Theorem export_loop_calls (lib : env) (idxs : list Z) (mf : KS) (a : ndarray)
    (w : world) :
  mo_coeff mf = Some a ->
  Forall (fun idx => 1 <= idx <= Z.of_nat (shape1 a)) idxs ->
  calls (run lib (export_loop idxs mf) w) `prefix_of` export_events mf a idxs
  /\ (result (run lib (export_loop idxs mf) w) = inr tt ->
      calls (run lib (export_loop idxs mf) w) = export_events mf a idxs).
Proof.
  intros Ha Hall. revert w.
  induction Hall as [| idx rest Hidx Hrest IH]; intros w.
  - split; [apply prefix_nil | reflexivity].
  - rewrite run_export_loop_cons.
    destruct (lib _ _ w) as [[e | []] w1].
    { split; [apply prefix_cons, prefix_nil | discriminate]. }
    cbn zeta. rewrite run_gen_orb, (mo_coeff_col_in_range mf a idx Ha Hidx), run_perform.
    cbn [result final calls].
    destruct (lib _ (cubegen_orbital _ _ _) w1) as [[e | []] w2]; cbn [fst snd].
    + split; [| discriminate]. do 2 apply prefix_cons. apply prefix_nil.
    + destruct (IH w2) as [Hpre Hdone]. split.
      * do 2 apply prefix_cons. exact Hpre.
      * intros Hres. cbn. do 2 f_equal. apply Hdone, Hres.
Qed.

Lemma export_loop_calls_witness :
  calls (run converging (export_loop range_16_22 wide_mf) empty_world)
    `prefix_of` export_events wide_mf wide_coeff range_16_22
  /\ (result (run converging (export_loop range_16_22 wide_mf) empty_world) = inr tt ->
      calls (run converging (export_loop range_16_22 wide_mf) empty_world)
      = export_events wide_mf wide_coeff range_16_22).
Proof.
  apply (export_loop_calls converging range_16_22 wide_mf wide_coeff empty_world).
  - reflexivity.
  - repeat constructor; cbn; lia.
Defined.




(** X8. Exporting a list in two batches, the second from the world the first
    one left, is exporting the whole list: same result, same final world,
    same calls in the same order; the second batch is not started when the
    first one raised. *)
Theorem export_loop_app (lib : env) (l1 l2 : list Z) (mf : KS) (w : world) :
  run lib (export_loop (l1 ++ l2) mf) w =
  match result (run lib (export_loop l1 mf) w) with
  | inr _ =>
      let o2 := run lib (export_loop l2 mf) (final (run lib (export_loop l1 mf) w)) in
      mk_outcome (result o2) (final o2)
                 (calls (run lib (export_loop l1 mf) w) ++ calls o2)
  | inl e => run lib (export_loop l1 mf) w
  end.
Proof.
  revert w. induction l1 as [| idx l1 IH]; intros w.
  - cbn. destruct (run lib (export_loop l2 mf) w); reflexivity.
  - change (((idx :: l1) ++ l2)%list) with (idx :: (l1 ++ l2))%list.
    rewrite !run_export_loop_cons.
    destruct (lib _ _ w) as [[e | []] w1]; [reflexivity |]. cbn zeta.
    destruct (result (run lib (gen_orb "benzene" idx mf) w1)) as [e | []];
      [reflexivity |].
    rewrite IH.
    destruct (run lib (export_loop l1 mf) _) as [[e | []] f1 c1]; cbn.
    + reflexivity.
    + rewrite <- app_assoc. reflexivity.
Qed.

(** *** From the first energy to the relaxed state *)

Lemma run_print_atom_coords (lib : env) (m : Mole) (w : world) :
  run lib (print_atom_coords m) w =
  match lib _ (Mole_atom_coords m) w with
  | (inl e, w1) => mk_outcome (inl e) w1 [EvAtomCoords m]
  | (inr xyz, w1) =>
      match lib _ (ndarray_str xyz) w1 with
      | (inl e, w2) => mk_outcome (inl e) w2 [EvAtomCoords m; EvArrayStr xyz]
      | (inr text, w2) =>
          mk_outcome (lib _ (builtins_print text) w2).1
                     (lib _ (builtins_print text) w2).2
                     [EvAtomCoords m; EvArrayStr xyz; EvPrint text]
      end
  end.
Proof.
  unfold print_atom_coords. cbn.
  destruct (lib _ _ w) as [[e | xyz] w1]; [reflexivity |]. cbn.
  destruct (lib _ _ w1) as [[e | text] w2]; [reflexivity |]. cbn.
  destruct (lib _ _ w2) as [[e | []] w3]; reflexivity.
Qed.

Lemma run_relax (lib : env) (coords : string) (w : world) :
  run lib (relax coords) w =
  let o1 := run lib (calc_e coords None None) w in
  match result o1 with
  | inl e => mk_outcome (inl e) (final o1) (calls o1)
  | inr my_mf =>
      match lib _ (geometric_optimize my_mf 100) (final o1) with
      | (inl e, w2) => mk_outcome (inl e) w2 (calls o1 ++ [EvOptimize my_mf 100])
      | (inr mol_eq, w2) =>
          let o3 := run lib (run_dft mol_eq None) w2 in
          match result o3 with
          | inl e =>
              mk_outcome (inl e) (final o3)
                         (calls o1 ++ EvOptimize my_mf 100 :: calls o3)
          | inr mf_eq =>
              let o4 := run lib (print_atom_coords mol_eq) (final o3) in
              mk_outcome
                match result o4 with
                | inl e => inl e
                | inr _ => inr (my_mf, mol_eq, mf_eq)
                end
                (final o4)
                (calls o1 ++ EvOptimize my_mf 100 :: calls o3 ++ calls o4)
          end
      end
  end.
Proof.
  unfold relax. rewrite run_bind. cbn zeta.
  destruct (result (run lib (calc_e coords None None) w)) as [e | my_mf];
    [reflexivity |].
  change (perform (geometric_optimize my_mf 100) ≫= ?f)
    with (Do (geometric_optimize my_mf 100) f).
  cbn [run event_of].
  destruct (lib _ _ (final (run lib (calc_e coords None None) w)))
    as [[e | mol_eq] w2]; [reflexivity |].
  rewrite run_bind. cbn zeta.
  destruct (result (run lib (run_dft mol_eq None) w2)) as [e | mf_eq];
    [reflexivity |].
  rewrite run_bind. cbn zeta.
  destruct (result (run lib (print_atom_coords mol_eq) _)) as [e | []]; cbn;
    rewrite ?app_nil_r; reflexivity.
Qed.

(** X9. The stages run in the order build, solve, optimize, solve, then the
    three steps of printing the new coordinates (ask for them, render
    them, print), each one only after the one before it has returned: the
    log of any run is an initial part of that sequence, and all of it when
    the run returned.  An exception out of any stage ends the run there. *)
Theorem relax_stages (lib : env) (coords : string) (w : world) :
  map event_kind (calls (run lib (relax coords) w))
    `prefix_of` ["build"; "kernel"; "optimize"; "kernel"; "atom_coords"; "str";
                 "print"]
  /\ match result (run lib (relax coords) w) with
     | inr _ => map event_kind (calls (run lib (relax coords) w))
                = ["build"; "kernel"; "optimize"; "kernel"; "atom_coords"; "str";
                   "print"]
     | inl _ => True
     end.
Proof.
  rewrite run_relax, run_calc_e. cbn zeta.
  destruct (lib _ _ w) as [[e | parsed] w1]; cbn [result final calls].
  { split; [apply prefix_cons, prefix_nil | exact I]. }
  destruct (lib _ _ w1) as [[e | r] w2]; cbn [result final calls].
  { split; [do 2 apply prefix_cons; apply prefix_nil | exact I]. }
  destruct (lib _ _ w2) as [[e | mol_eq] w3]; cbn [result final calls].
  { split; [do 3 apply prefix_cons; apply prefix_nil | exact I]. }
  rewrite run_run_dft.
  destruct (lib _ _ w3) as [[e | r'] w4]; cbn [result final calls].
  { split; [do 4 apply prefix_cons; apply prefix_nil | exact I]. }
  rewrite run_print_atom_coords.
  destruct (lib _ _ w4) as [[e | xyz] w5]; cbn [result final calls].
  { split; [do 5 apply prefix_cons; apply prefix_nil | exact I]. }
  destruct (lib _ _ w5) as [[e | text] w6]; cbn [result final calls].
  { split; [do 6 apply prefix_cons; apply prefix_nil | exact I]. }
  destruct (lib _ _ w6) as [[e | []] w7]; cbn; split; reflexivity || exact I.
Qed.



(** *** Which state the cubes come from *)

Lemma cubegen_in_export_loop (lib : env) (idxs : list Z) (mf : KS) (w : world)
    (m : Mole) (f : string) (c : list float) :
  In (EvCubegen m f c) (calls (run lib (export_loop idxs mf) w)) ->
  m = mol mf
  /\ exists idx, In idx idxs
                 /\ f = "benzene_mol_" +:+ str idx +:+ ".cub"
                 /\ mo_coeff_col mf (idx - 1) = inr c.
Proof.
  revert w. induction idxs as [| idx rest IH]; intros w; [intros [] |].
  rewrite run_export_loop_cons.
  destruct (lib _ _ w) as [[e | []] w1].
  { intros [H | []]. discriminate H. }
  cbn zeta.
  assert (In (EvCubegen m f c) (calls (run lib (gen_orb "benzene" idx mf) w1)) ->
          m = mol mf
          /\ exists idx', In idx' (idx :: rest)
                          /\ f = "benzene_mol_" +:+ str idx' +:+ ".cub"
                          /\ mo_coeff_col mf (idx' - 1) = inr c) as Hhere.
  { rewrite calls_gen_orb.
    destruct (mo_coeff_col mf (idx - 1)) as [e | col] eqn:Hcol; [intros [] |].
    intros [[= <- <- <-] | []]. split; [reflexivity |].
    exists idx. split; [left; reflexivity |]. split; [reflexivity | exact Hcol]. }
  destruct (result (run lib (gen_orb "benzene" idx mf) w1)) as [e | []];
    cbn [calls].
  - intros [H | H]; [discriminate H | apply Hhere, H].
  - intros [H | H]; [discriminate H |].
    apply in_app_or in H as [H | H]; [apply Hhere, H |].
    destruct (IH _ H) as [Hm (idx' & Hin & Hf & Hcol)].
    split; [exact Hm |]. exists idx'. split; [right; exact Hin | split; assumption].
Qed.

Lemma relax_never_exports (lib : env) (coords : string) (w : world) :
  Forall (fun ev => event_kind ev <> "cubegen") (calls (run lib (relax coords) w)).
Proof.
  rewrite run_relax, run_calc_e. cbn zeta.
  destruct (lib _ _ w) as [[e | parsed] w1]; cbn [result final calls].
  { repeat constructor; discriminate. }
  destruct (lib _ _ w1) as [[e | r] w2]; cbn [result final calls].
  { repeat constructor; discriminate. }
  destruct (lib _ _ w2) as [[e | mol_eq] w3]; cbn [result final calls].
  { repeat constructor; discriminate. }
  rewrite run_run_dft.
  destruct (lib _ _ w3) as [[e | r'] w4]; cbn [result final calls].
  { cbn. repeat constructor; discriminate. }
  rewrite run_print_atom_coords.
  destruct (lib _ _ w4) as [[e | xyz] w5]; cbn [result final calls].
  { cbn. repeat constructor; discriminate. }
  destruct (lib _ _ w5) as [[e | text] w6]; cbn [result final calls].
  { cbn. repeat constructor; discriminate. }
  cbn. repeat constructor; discriminate.
Qed.

Lemma relax_result_inv (lib : env) (coords : string) (w : world)
    (my_mf mf_eq : KS) (mol_eq : Mole) :
  result (run lib (relax coords) w) = inr (my_mf, mol_eq, mf_eq) ->
  mol mf_eq = mol_eq /\ exists a, mo_coeff mf_eq = Some a.
Proof.
  rewrite run_relax. cbn zeta.
  destruct (result (run lib (calc_e coords None None) w)) as [e | my_mf'];
    cbn [result]; [discriminate |].
  destruct (lib _ _ _) as [[e | mol_eq'] w3]; cbn [result]; [discriminate |].
  rewrite run_run_dft.
  destruct (lib _ _ w3) as [[e | r'] w4]; cbn [result final]; [discriminate |].
  destruct (result (run lib (print_atom_coords mol_eq') w4)) as [e | []];
    [discriminate |].
  intros [= <- <- <-]. split; [reflexivity | eexists; reflexivity].
Qed.

(** X11. Every cube the notebook asks for is a cube of the relaxed molecule:
    a grid-generator call occurs only after the three objects [my_mf],
    [mol_eq], [mf_eq] have been returned, it is made on [mol_eq], the
    molecule the optimizer gave back, its file is "benzene_mol_<idx>.cub"
    for an index of the export range, and its coefficients are the slice
    [[:, idx - 1]] of the matrix of [mf_eq], the state solved last. *)
Theorem relax_and_export_cubes (lib : env) (coords : string) (w : world)
    (m : Mole) (f : string) (c : list float) :
  In (EvCubegen m f c) (calls (run lib (relax_and_export coords) w)) ->
  exists my_mf mol_eq mf_eq a idx,
    result (run lib (relax coords) w) = inr (my_mf, mol_eq, mf_eq)
    /\ m = mol_eq
    /\ mo_coeff mf_eq = Some a
    /\ In idx range_16_22
    /\ f = "benzene_mol_" +:+ str idx +:+ ".cub"
    /\ getitem_col a (idx - 1) = inr c.
Proof.
  unfold relax_and_export. rewrite run_bind.
  pose proof (relax_never_exports lib coords w) as Hnone.
  rewrite Forall_forall in Hnone.
  assert (~ In (EvCubegen m f c) (calls (run lib (relax coords) w))) as Hnot.
  { intros Hin. apply list_elem_of_In, Hnone in Hin. apply Hin. reflexivity. }
  destruct (result (run lib (relax coords) w)) as [e | [[my_mf mol_eq] mf_eq]] eqn:Hres;
    cbn [calls]; [intros Hin; destruct (Hnot Hin) |].
  cbn zeta. cbn [calls]. intros Hin.
  apply in_app_or in Hin as [Hin | Hin]; [destruct (Hnot Hin) |].
  rewrite run_bind in Hin. cbn [snd] in Hin.
  assert (In (EvCubegen m f c)
             (calls (run lib (export_loop range_16_22 mf_eq)
                       (final (run lib (relax coords) w))))) as Hloop.
  { destruct (result (run lib (export_loop range_16_22 mf_eq) _)) as [e | []];
      cbn [calls] in Hin; [exact Hin |].
    apply in_app_or in Hin as [Hin | []]. exact Hin. }
  apply cubegen_in_export_loop in Hloop as [Hm (idx & Hidx & Hf & Hcol)].
  destruct (relax_result_inv lib coords w _ _ _ Hres) as [Hmol [a Ha]].
  exists my_mf, mol_eq, mf_eq, a, idx.
  unfold mo_coeff_col in Hcol. rewrite Ha in Hcol.
  repeat split; try assumption. congruence.
Qed.

Lemma relax_and_export_cubes_witness :
  exists my_mf mol_eq mf_eq a idx,
    result (run wide_solver (relax water_coords) empty_world)
    = inr (my_mf, mol_eq, mf_eq)
    /\ set__atom water_atoms (mol_request water_coords (Some "def2-svp") None None)
       = mol_eq
    /\ mo_coeff mf_eq = Some a
    /\ In idx range_16_22
    /\ "benzene_mol_17.cub" = "benzene_mol_" +:+ str idx +:+ ".cub"
    /\ getitem_col a (idx - 1) = inr [0.75%float].
Proof.
  apply (relax_and_export_cubes wide_solver water_coords empty_world).
  apply (nth_error_In _ 10). reflexivity.
Defined.

(** *** Rows and columns of the coefficient matrix *)

Lemma getitem_row_in_range (a : ndarray) (k : Z) (row : list float) :
  0 <= k < Z.of_nat (shape0 a) ->
  rows a !! Z.to_nat k = Some row ->
  getitem_row a k = inr row.
Proof.
  intros Hk Hrow. unfold getitem_row.
  rewrite normalize_index_front by lia.
  f_equal. apply nth_lookup_Some, Hrow.
Qed.

(** X12. The cell [mf.mo_coeff[k]] shows a row, not an orbital: for a
    well-formed matrix and [k] among the atomic orbitals it has one entry
    per molecular orbital, and its entry at position [orb_num - 1] is the
    entry at position [k] of the coefficient vector that [gen_orb] exports
    for orbital [orb_num]. *)
Theorem mo_coeff_row_transposes (lib : env) (mol_name : string) (mf : KS)
    (a : ndarray) (k orb_num : Z) (w : world) :
  mo_coeff mf = Some a ->
  ndarray_wf a = true ->
  0 <= k < Z.of_nat (shape0 a) ->
  1 <= orb_num <= Z.of_nat (shape1 a) ->
  exists row col x,
    mo_coeff_row mf k = inr row
    /\ length row = shape1 a
    /\ calls (run lib (gen_orb mol_name orb_num mf) w)
       = [EvCubegen (mol mf) (mol_name +:+ "_mol_" +:+ str orb_num +:+ ".cub") col]
    /\ length col = shape0 a
    /\ row !! Z.to_nat (orb_num - 1) = Some x
    /\ col !! Z.to_nat k = Some x.
Proof.
  intros Ha Hwf Hk Hn.
  destruct (lookup_lt_is_Some_2 (rows a) (Z.to_nat k)) as [row Hrow].
  { rewrite (ndarray_wf_length a Hwf). lia. }
  pose proof (ndarray_wf_rows a _ row Hwf Hrow) as Hlen.
  destruct (lookup_lt_is_Some_2 row (Z.to_nat (orb_num - 1))) as [x Hx]; [lia |].
  exists row, (column a (Z.to_nat (orb_num - 1))), x.
  unfold mo_coeff_row. rewrite Ha, (getitem_row_in_range a k row Hk Hrow).
  rewrite calls_gen_orb, (mo_coeff_col_in_range mf a orb_num Ha Hn).
  repeat split; try assumption.
  - apply column_length, Hwf.
  - rewrite (column_lookup a _ _ row Hwf) by (lia || assumption). exact Hx.
Qed.

Lemma mo_coeff_row_transposes_witness :
  exists row col x,
    mo_coeff_row sample_mf 1 = inr row
    /\ length row = 3%nat
    /\ calls (run converging (gen_orb "water" 3 sample_mf) empty_world)
       = [EvCubegen sample_mol ("water" +:+ "_mol_" +:+ str 3 +:+ ".cub") col]
    /\ length col = 2%nat
    /\ row !! Z.to_nat (3 - 1) = Some x
    /\ col !! Z.to_nat 1 = Some x.
Proof.
  apply (mo_coeff_row_transposes converging "water" sample_mf sample_coeff 1 3
           empty_world); [reflexivity | reflexivity | cbn; lia | cbn; lia].
Defined.



(** *** Putting the functions together *)

(** X15. A state returned by [run_dft] can always be sliced: it holds the
    molecule [run_dft] was given and a coefficient matrix, and for every
    index between 1 and the number of columns [gen_orb] makes its one call,
    on that molecule, with the column of that matrix. *)
Theorem run_dft_then_gen_orb (lib lib' : env) (m : Mole) (xc_func : option string)
    (w w' : world) (mf : KS) :
  result (run lib (run_dft m xc_func) w) = inr mf ->
  exists a,
    mo_coeff mf = Some a
    /\ mol mf = m
    /\ forall (mol_name : string) (orb_num : Z),
         1 <= orb_num <= Z.of_nat (shape1 a) ->
         calls (run lib' (gen_orb mol_name orb_num mf) w')
         = [EvCubegen m (mol_name +:+ "_mol_" +:+ str orb_num +:+ ".cub")
                      (column a (Z.to_nat (orb_num - 1)))].
Proof.
  rewrite run_run_dft.
  destruct (lib _ _ w) as [[e | r] w1]; cbn [result]; [discriminate |].
  intros [= <-]. exists (res_mo_coeff r).
  split; [reflexivity |]. split; [reflexivity |].
  intros mol_name orb_num Hn.
  rewrite calls_gen_orb, (mo_coeff_col_in_range _ (res_mo_coeff r)) by (reflexivity || exact Hn).
  reflexivity.
Qed.

Lemma run_dft_then_gen_orb_witness :
  exists a,
    mo_coeff (store_result
                {| res_converged := true; res_e_tot := (-76.3)%float;
                   res_mo_coeff := sample_coeff |}
                (dft_request sample_mol None)) = Some a
    /\ mol (store_result
              {| res_converged := true; res_e_tot := (-76.3)%float;
                 res_mo_coeff := sample_coeff |}
              (dft_request sample_mol None)) = sample_mol
    /\ forall (mol_name : string) (orb_num : Z),
         1 <= orb_num <= Z.of_nat (shape1 a) ->
         calls (run stalling
                  (gen_orb mol_name orb_num
                     (store_result
                        {| res_converged := true; res_e_tot := (-76.3)%float;
                           res_mo_coeff := sample_coeff |}
                        (dft_request sample_mol None))) used_world)
         = [EvCubegen sample_mol (mol_name +:+ "_mol_" +:+ str orb_num +:+ ".cub")
                      (column a (Z.to_nat (orb_num - 1)))].
Proof.
  apply (run_dft_then_gen_orb converging stalling sample_mol None empty_world
           used_world). reflexivity.
Defined.
